(** * vision-agent-tools: the Owlv2 detection wrapper and the depth tool

    A shallow embedding of
      - [vision_agent_tools/models/owlv2.py]  (module [owlv2]) and
      - [vision_agent_tools/tools/depth_estimation.py]
        (module [depth_estimation]).

    The repository code is glue around third-party libraries (transformers,
    torch, PIL, cv2).  The glue is embedded as written.  The network, the
    processor and the depth model appear as objects whose methods either
    return or raise an exception of the library's own; image conversions,
    tensor moves and the builtin [round] are taken to return.  Python
    floats are binary64, as Rocq's primitive floats are. *)

From Stdlib Require Import List ZArith Bool String Lia Floats.
Import ListNotations.
Set Warnings "-register-all,-inexact-float".
Local Open Scope string_scope.
Local Open Scope list_scope.
Local Open Scope Z_scope.

(** ** Python values, exceptions and control flow *)

Module Py.

(** Exceptions of a third-party library: opaque to the wrapper, which never
    catches them. *)
Inductive lib_exception : Type :=
| RuntimeError (msg : string)
| AttributeError (msg : string)
| OtherLibraryError (msg : string).

(** Exceptions a call of the wrapper can end with. [ValueError],
    [TypeError], [IndexError] and [UnboundLocalError] are the ones the
    wrapper code itself raises (a [raise] statement, an index, a name);
    whatever a library raises, of whichever Python class, is a
    [LibraryError]. *)
Inductive exn : Type :=
| ValueError (msg : string)
| TypeError (msg : string)
| IndexError (msg : string)
| UnboundLocalError (name : string)
| LibraryError (e : lib_exception).

Definition result (A : Type) : Type := (exn + A)%type.

(** What a library call was asked to do about devices; the order in the
    trace is the order of the statements executed. *)
Inductive event : Type :=
| EvInputsTo (device : string)
| EvAutocast (device : string)
| EvForward (module_device : string).

(** A computation: the events it produced and how it ended. *)
Definition M (A : Type) : Type := (list event * result A)%type.

Definition ret {A} (a : A) : M A := ([], inr a).
Definition raise {A} (e : exn) : M A := ([], inl e).
Definition emit (e : event) : M unit := ([e], inr tt).

Definition bind {A B} (m : M A) (k : A -> M B) : M B :=
  match m with
  | (t, inl e) => (t, inl e)
  | (t, inr a) => let '(t', r) := k a in (t ++ t', r)
  end.

(** A library call: its exception, if any, propagates unmodified. *)
Definition lib {A} (r : lib_exception + A) : M A :=
  match r with
  | inl e => raise (LibraryError e)
  | inr a => ret a
  end.

Definition lift {A} (r : result A) : M A := ([], r).

Definition trace {A} (m : M A) : list event := fst m.
Definition outcome {A} (m : M A) : result A := snd m.

Declare Scope py_scope.
Delimit Scope py_scope with py.
Notation "x <- c ;; k" := (bind c (fun x => k))
  (at level 61, c at next level, right associativity) : py_scope.
Notation "c ;;; k" := (bind c (fun _ => k))
  (at level 61, right associativity) : py_scope.

(** [l[i]] on a Python list: negative indices count from the end,
    anything outside [-len, len) raises IndexError. *)
Definition getitem {A} (l : list A) (i : Z) : result A :=
  let n := Z.of_nat (List.length l) in
  let j := if i <? 0 then i + n else i in
  if (0 <=? j) && (j <? n) then
    match nth_error l (Z.to_nat j) with
    | Some a => inr a
    | None => inl (IndexError "list index out of range")
    end
  else inl (IndexError "list index out of range").

(** [zip(a, b, c)]: stops with the shortest argument. *)
Fixpoint zip3 {A B C} (a : list A) (b : list B) (c : list C)
  : list (A * B * C) :=
  match a, b, c with
  | x :: a', y :: b', z :: c' => (x, y, z) :: zip3 a' b' c'
  | _, _, _ => []
  end.

(** [for x in xs: body], the loop state [s] threaded through; the first
    exception ends the loop. *)
Fixpoint for_in {A S} (xs : list A) (body : A -> S -> M S) (s : S) : M S :=
  match xs with
  | [] => ret s
  | x :: xs' => bind (body x s) (for_in xs' body)
  end.

(** The loop body the wrappers write twice: append one result per
    element to the list built so far. *)
Definition appending {A B} (f : A -> M B) (x : A) (acc : list B)
  : M (list B) :=
  bind (f x) (fun r => ret (acc ++ [r])).

End Py.

Import Py.
Local Open Scope py_scope.

(** ** The third-party objects the wrappers hold *)

(** Modelled from the spec: [shared_types.Device], whose declaration is
    not among the sources. The spec makes the configured device an
    "enum: CPU, GPU, accelerator"; [owlv2.py] (lines 28-30) names the
    members [GPU], [MPS] and [CPU]. What [.value] of a member is stays a
    parameter ([Device_value] below). *)
Inductive Device : Type := GPU | MPS | CPU.

(** The library's own data, opaque to the wrappers. *)
Class Carriers : Type := {
  PILImage : Type;      (* PIL.Image.Image *)
  ndarray : Type;       (* numpy array: a video frame, a cv2 image, a depth map *)
  BatchFeature : Type;  (* what the processor hands to the network *)
  ModelOutput : Type    (* raw logits and boxes of a forward pass *)
}.

Section Objects.
Context `{Carriers}.

(** A value a caller can pass or get back. [PyObject] stands for an
    instance of any class that derives neither from [str] nor from
    [PIL.Image.Image]. *)
Inductive pyobj : Type :=
| PyNone
| PyBool (b : bool)
| PyInt (z : Z)
| PyFloat (f : float)
| PyStr (s : string)
| PyBytes (b : list Byte.byte)
| PyList (l : list pyobj)
| PyTuple (l : list pyobj)
| PyDict (items : list (pyobj * pyobj))
| PyImage (im : PILImage)
| PyArray (a : ndarray)
| PyObject (cls : string) (fields : list (string * pyobj)).

(** One entry of [post_process_object_detection]'s result: the dict with
    keys "boxes", "scores", "labels". Rows are given as [box.tolist()],
    [score.item()] and [label.item()] return them. *)
Record DetectionDict : Type := {
  boxes : list (list float);
  scores : list float;
  labels : list Z
}.

(** [transformers.Owlv2Processor]: its [__call__] (with
    [return_tensors="pt"]) and its post-processing. *)
Record Owlv2Processor : Type := {
  processor_call : list (list string) -> PILImage ->
                   lib_exception + BatchFeature;
  post_process_object_detection :
    ModelOutput -> float -> list (Z * Z) ->
    lib_exception + list DetectionDict
}.

(** [transformers.Owlv2ForObjectDetection]: a torch module. [forward]
    gets the device the module sits on, the autocast device and the
    inputs. *)
Record Owlv2ForObjectDetection : Type := {
  module_device : string;
  training : bool;
  forward : string -> string -> BatchFeature -> lib_exception + ModelOutput
}.

(** [module.to(device)] and [module.eval()]. *)
Definition Module_to (m : Owlv2ForObjectDetection) (device : string)
  : Owlv2ForObjectDetection :=
  {| module_device := device; training := training m; forward := forward m |}.

Definition Module_eval (m : Owlv2ForObjectDetection)
  : Owlv2ForObjectDetection :=
  {| module_device := module_device m; training := false;
     forward := forward m |}.

(** [depth_anything_v2.dpt.DepthAnythingV2], as far as the depth tool
    uses it. [cv2.imread] yields [None] for an unreadable path, hence the
    option. *)
Record DepthAnythingV2 : Type := {
  infer_image : option ndarray -> lib_exception + ndarray
}.

Inductive ColorConversionCode : Type := COLOR_RGB2BGR | COLOR_BGR2RGB.

End Objects.

(** Functions of PIL, torch, numpy, cv2 and the builtins the wrappers
    call. A torch device is named by a string; passing a [Device] member
    (a str enum) and passing its [.value] both come to [Device_value]. *)
Class Library `{Carriers} : Type := {
  Image_convert : PILImage -> string -> PILImage;
  Image_fromarray : ndarray -> PILImage;
  Image_size : PILImage -> Z * Z;                       (* (width, height) *)
  BatchFeature_to : BatchFeature -> string -> BatchFeature;
  round : float -> Z -> float;                          (* round(x, ndigits) *)
  Device_value : Device -> string;
  cuda_is_available : bool;
  mps_is_available : bool;
  Owlv2ForObjectDetection_from_pretrained :
    string -> lib_exception + Owlv2ForObjectDetection;
  Owlv2Processor_from_pretrained : string -> lib_exception + Owlv2Processor;
  cv2_imread : string -> option ndarray;
  cv2_cvtColor : ndarray -> ColorConversionCode -> ndarray;
  np_array : PILImage -> ndarray
}.

(** ** vision_agent_tools/models/owlv2.py *)

Module owlv2.
Section Code.
Context `{Library}.

Record OWLV2Config : Type := {
  model_name : string;
  processor_name : string;
  confidence : float;
  device : Device
}.

(** [OWLV2Config()]: the field defaults (lines 12-33). *)
Definition OWLV2Config_default : OWLV2Config :=
  {| model_name := "google/owlv2-large-patch14-ensemble";
     processor_name := "google/owlv2-large-patch14-ensemble";
     confidence := 0.1%float;
     device := if cuda_is_available then GPU
               else if mps_is_available then MPS else CPU |}.

Record Owlv2InferenceData : Type := {
  label : string;
  score : float;
  bbox : list float
}.

(** [self]. *)
Record Owlv2 : Type := {
  model_config : OWLV2Config;
  _model : Owlv2ForObjectDetection;
  _processor : Owlv2Processor
}.

(** Lines 60-91. The [i] of the comprehension on line 84 is local to it,
    so [texts[i]] on line 87 is [texts[0]]. *)
Definition __run_inference (self : Owlv2) (image : PILImage)
    (texts : list (list string)) (confidence : float)
  : M (list Owlv2InferenceData) :=
  inputs <- lib (processor_call (_processor self) texts image) ;;
  emit (EvInputsTo (Device_value (device (model_config self)))) ;;;
  let inputs :=
    BatchFeature_to inputs (Device_value (device (model_config self))) in
  emit (EvAutocast (Device_value (device (model_config self)))) ;;;
  emit (EvForward (module_device (_model self))) ;;;
  outputs <- lib (forward (_model self) (module_device (_model self))
                    (Device_value (device (model_config self))) inputs) ;;
  let target_sizes := [(snd (Image_size image), fst (Image_size image))] in
  results <- lib (post_process_object_detection (_processor self)
                    outputs confidence target_sizes) ;;
  let i := 0 in
  r <- lift (getitem results i) ;;
  for_in (zip3 (boxes r) (scores r) (labels r))
    (fun '(box, score, label) inferences =>
       let box := map (fun c => round c 2) box in
       t <- lift (getitem texts i) ;;
       text <- lift (getitem t label) ;;
       ret (inferences ++
            [ {| label := text; score := score; bbox := box |} ]))
    [].

(** Lines 93-107. *)
Definition __init__ (model_config : option OWLV2Config) : M Owlv2 :=
  let model_config :=
    match model_config with Some c => c | None => OWLV2Config_default end in
  model <- lib (Owlv2ForObjectDetection_from_pretrained
                  (model_name model_config)) ;;
  processor <- lib (Owlv2Processor_from_pretrained
                      (processor_name model_config)) ;;
  let model := Module_to model (Device_value (device model_config)) in
  let model := Module_eval model in
  ret {| model_config := model_config; _model := model;
         _processor := processor |}.

Definition is_None {A} (o : option A) : bool :=
  match o with None => true | Some _ => false end.

(** Lines 109-159. The local [inferences] is bound only inside the two
    branches, hence the option. *)
Definition __call__ (self : Owlv2) (prompts : list string)
    (image : option PILImage) (video : option (list ndarray))
  : M (list (list Owlv2InferenceData)) :=
  let texts := [prompts] in
  if is_None image && is_None video then
    raise (ValueError "Either 'image' or 'video' must be provided.")
  else if negb (is_None image) && negb (is_None video) then
    raise (ValueError "Only one of 'image' or 'video' can be provided.")
  else
    inferences <-
      match image with
      | Some image =>
          let image := Image_convert image "RGB" in
          let inferences := [] in
          r <- __run_inference self image texts
                 (confidence (model_config self)) ;;
          ret (Some (inferences ++ [r]))
      | None => ret None
      end ;;
    inferences <-
      match video with
      | Some video =>
          l <- for_in video
                 (fun frame inferences =>
                    let image :=
                      Image_convert (Image_fromarray frame) "RGB" in
                    r <- __run_inference self image texts
                           (confidence (model_config self)) ;;
                    ret (inferences ++ [r]))
                 [] ;;
          ret (Some l)
      | None => ret inferences
      end ;;
    match inferences with
    | Some l => ret l
    | None => raise (UnboundLocalError "inferences")
    end.

(** Lines 161-162: only the network is moved. *)
Definition to (self : Owlv2) (device : Device) : Owlv2 :=
  {| model_config := model_config self;
     _model := Module_to (_model self) (Device_value device);
     _processor := _processor self |}.

(** The keyword parameters of [__call__] (lines 110-115, [self] apart);
    there is no [**kwargs]. *)
Definition __call___parameters : list string := ["prompts"; "image"; "video"].

End Code.
End owlv2.

(** ** vision_agent_tools/tools/depth_estimation.py *)

Module depth_estimation.
Section Code.
Context `{Library}.

Record DepthMap : Type := { map : ndarray }.

(** [self], as [__call__] reads it. *)
Record DepthEstimation : Type := {
  _model : DepthAnythingV2;
  device : string;
  model_checkpoint_path : string
}.

(** Lines 66-86. After the dispatch [image] holds what [cv2.imread] or
    [cv2.cvtColor] returned. *)
Definition __call__ (self : DepthEstimation) (image : pyobj) : M DepthMap :=
  image <-
    match image with
    | PyStr path => ret (cv2_imread path)
    | PyImage im => ret (Some (cv2_cvtColor (np_array im) COLOR_RGB2BGR))
    | _ => raise (ValueError
                    "Invalid image type. Expected str or PIL.Image.Image.")
    end ;;
  depth <- lib (infer_image (_model self) image) ;;
  ret {| map := depth |}.

End Code.
End depth_estimation.

(** ** Vocabulary of the statements *)

Section Statements.
Context `{Library}.
Import owlv2.

(** What one per-image run iterates over: the triples zipped from
    [results[0]] (lines 62-83 of [__run_inference]). *)
Definition detections (self : Owlv2) (image : PILImage)
    (texts : list (list string)) (confidence : float)
  : M (list (list float * float * Z)) :=
  inputs <- lib (processor_call (_processor self) texts image) ;;
  emit (EvInputsTo (Device_value (device (model_config self)))) ;;;
  emit (EvAutocast (Device_value (device (model_config self)))) ;;;
  emit (EvForward (module_device (_model self))) ;;;
  outputs <- lib (forward (_model self) (module_device (_model self))
                    (Device_value (device (model_config self)))
                    (BatchFeature_to inputs
                       (Device_value (device (model_config self))))) ;;
  results <- lib (post_process_object_detection (_processor self) outputs
                    confidence
                    [(snd (Image_size image), fst (Image_size image))]) ;;
  r <- lift (getitem results 0) ;;
  ret (zip3 (boxes r) (scores r) (labels r)).

(** The record the loop body appends for one triple. *)
Definition record_of (texts : list (list string))
    (d : list float * float * Z) : M Owlv2InferenceData :=
  let '(box, score, label) := d in
  t <- lift (getitem texts 0) ;;
  text <- lift (getitem t label) ;;
  ret {| label := text; score := score;
         bbox := List.map (fun c => round c 2) box |}.

(** The images a call runs the network on, in order. *)
Definition call_images (image : option PILImage)
    (video : option (list ndarray)) : list PILImage :=
  match image, video with
  | Some image, None => [Image_convert image "RGB"]
  | None, Some video =>
      List.map (fun frame => Image_convert (Image_fromarray frame) "RGB")
        video
  | _, _ => []
  end.

(** A returned value as the caller sees it. *)
Definition record_to_py (r : Owlv2InferenceData) : pyobj :=
  PyObject "Owlv2InferenceData"
    [("label", PyStr (label r)); ("score", PyFloat (score r));
     ("bbox", PyList (List.map PyFloat (bbox r)))].

Definition to_py (out : list (list Owlv2InferenceData)) : pyobj :=
  PyList (List.map (fun l => PyList (List.map record_to_py l)) out).

(** The value the spec's scenario names: [[{"bboxes": [], "labels": []}]]. *)
Definition spec_empty_grounding : pyobj :=
  PyList [PyDict [(PyStr "bboxes", PyList []); (PyStr "labels", PyList [])]].

(** Intersection over union of two [xmin, ymin, xmax, ymax] boxes. *)
Definition fmax (a b : float) : float := if (a <? b)%float then b else a.
Definition fmin (a b : float) : float := if (a <? b)%float then a else b.

Definition iou (a b : list float) : float :=
  match a, b with
  | [ax0; ay0; ax1; ay1], [bx0; by0; bx1; by1] =>
      let w := fmax 0 (fmin ax1 bx1 - fmax ax0 bx0) in
      let h := fmax 0 (fmin ay1 by1 - fmax ay0 by0) in
      let inter := (w * h)%float in
      let area_a := ((ax1 - ax0) * (ay1 - ay0))%float in
      let area_b := ((bx1 - bx0) * (by1 - by0))%float in
      (inter / (area_a + area_b - inter))%float
  | _, _ => 0%float
  end.

(** Non-max suppression at threshold [t] has been applied to [recs]: no
    record overlaps a higher-scoring record of its label by more than
    [t]. *)
Definition suppressed (t : float) (recs : list Owlv2InferenceData) : bool :=
  forallb (fun hi =>
    forallb (fun lo =>
      negb (String.eqb (label hi) (label lo)
            && (score lo <? score hi)%float
            && (t <? iou (bbox hi) (bbox lo))%float))
      recs)
    recs.

(** Binding keyword arguments against a parameter list without
    [**kwargs]: the first unknown keyword raises TypeError. *)
Fixpoint bind_keywords (parameters given : list string) : result unit :=
  match given with
  | [] => inr tt
  | k :: given' =>
      if existsb (String.eqb k) parameters
      then bind_keywords parameters given'
      else inl (TypeError
                  ("got an unexpected keyword argument '" ++ k ++ "'")%string)
  end.

(** The library keeps only scores above the threshold it is given. *)
Definition thresholds (p : Owlv2Processor) : Prop :=
  forall outputs thr sizes results r s,
    post_process_object_detection p outputs thr sizes = inr results ->
    In r results -> In s (scores r) -> (thr <? s)%float = true.

(** [m] returns, or raises an exception satisfying [P]. *)
Definition raises_only {A} (P : exn -> Prop) (m : M A) : Prop :=
  match outcome m with inl e => P e | inr _ => True end.

Definition not_ValueError (e : exn) : Prop :=
  match e with ValueError _ => False | _ => True end.

(** Every device request in a trace: inputs and autocast on [config],
    forward passes on a network sitting on [network]. *)
Definition placed_on (config network : string) (ev : event) : Prop :=
  match ev with
  | EvInputsTo d => d = config
  | EvAutocast d => d = config
  | EvForward d => d = network
  end.

(** The device requests of one run whose processor returned, in order. *)
Definition run_requests (self : Owlv2) : list event :=
  [EvInputsTo (Device_value (device (model_config self)));
   EvAutocast (Device_value (device (model_config self)));
   EvForward (module_device (_model self))].


(** [i] is a valid index of a Python list of length [n]. *)
Definition valid_index (n : nat) (i : Z) : Prop :=
  - Z.of_nat n <= i < Z.of_nat n.

End Statements.

(** ** A small concrete library, for running the wrappers *)

Module Demo.

(** Images and frames are numbered; tensors carry the image number and the
    device they were moved to. *)
#[export] Instance carriers : Carriers :=
  {| PILImage := nat; ndarray := nat;
     BatchFeature := nat * string; ModelOutput := nat |}.

(** Decimal rounding, half to even, of a finite float whose scaled
    magnitude fits 53 bits; other floats are returned as they are. *)
Definition half_even_div (n d : Z) : Z :=
  let q := n / d in
  let r := n mod d in
  if 2 * r <? d then q
  else if d <? 2 * r then q + 1
  else if Z.even q then q else q + 1.

Definition of_Z (z : Z) : float :=
  if z <? 0 then (- PrimFloat.of_uint63 (Uint63.of_Z (- z)))%float
  else PrimFloat.of_uint63 (Uint63.of_Z z).

Definition round_decimal (x : float) (ndigits : Z) : float :=
  match Prim2SF x with
  | S754_finite s m e =>
      let scale := 10 ^ ndigits in
      let n := if 0 <=? e then Zpos m * scale * 2 ^ e
               else half_even_div (Zpos m * scale) (2 ^ (- e)) in
      if n <? 2 ^ 53
      then let y := (of_Z n / of_Z scale)%float in
           if s then (- y)%float else y
      else x
  | _ => x
  end.

(** What the stand-in network sees in each image: candidate boxes with
    score and prompt index, before thresholding. *)
Definition candidates (image : nat) : list (list float * float * Z) :=
  match image with
  | 1%nat =>
      [([34.880001068115234; 158.16000366210938;
         582.0800170898438; 373.1999816894531]%float, 0.9%float, 0);
       ([35.119998931884766; 160.0; 580.0; 371.5]%float, 0.8%float, 0);
       ([0.0; 0.0; 12.0; 12.0]%float, 0.05%float, 0)]
  | 2%nat => [([1.0; 2.0; 3.0; 4.0]%float, 0.7%float, 3)]
  | 3%nat => [([723.968017578125; 1373.18408203125;
                902.14404296875; 1577.984130859375]%float, 0.5%float, 0);
              ([10.004999; 20.0; 30.0; 40.126]%float, 0.3%float, 1)]
  | _ => []
  end.

Definition keep (thr : float) (d : list float * float * Z) : bool :=
  let '(_, s, _) := d in (thr <? s)%float.

Definition processor : Owlv2Processor :=
  {| processor_call := fun _ image => inr (image, "cpu");
     post_process_object_detection := fun outputs thr _ =>
       let kept := filter (keep thr) (candidates outputs) in
       inr [ {| boxes := List.map (fun d => fst (fst d)) kept;
                scores := List.map (fun d => snd (fst d)) kept;
                labels := List.map snd kept |} ] |}.

(** Like torch, the stand-in network refuses inputs that sit on another
    device than its weights. *)
Definition network : Owlv2ForObjectDetection :=
  {| module_device := "cpu"; training := true;
     forward := fun placed _ inputs =>
       if String.eqb placed (snd inputs) then inr (fst inputs)
       else inl (RuntimeError
                   "Expected all tensors to be on the same device") |}.

#[export] Instance library : Library :=
  {| Image_convert := fun im _ => im;
     Image_fromarray := fun a => a;
     Image_size := fun _ => (640, 480);
     BatchFeature_to := fun b d => (fst b, d);
     round := round_decimal;
     Device_value := fun d =>
       match d with GPU => "cuda" | MPS => "mps" | CPU => "cpu" end;
     cuda_is_available := false;
     mps_is_available := false;
     Owlv2ForObjectDetection_from_pretrained := fun _ => inr network;
     Owlv2Processor_from_pretrained := fun _ => inr processor;
     cv2_imread := fun path =>
       if String.eqb path "tests/shared_data/images/cereal.jpg"
       then Some 0%nat else None;
     cv2_cvtColor := fun a _ => a;
     np_array := fun im => im |}.

(** The detection tool as [Owlv2()] builds it here. *)
Definition tool : owlv2.Owlv2 :=
  {| owlv2.model_config := owlv2.OWLV2Config_default;
     owlv2._model := Module_eval (Module_to network "cpu");
     owlv2._processor := processor |}.

Definition depth_network : DepthAnythingV2 :=
  {| infer_image := fun image =>
       match image with
       | Some a => inr a
       | None => inl (AttributeError
                        "'NoneType' object has no attribute 'shape'")
       end |}.

Definition depth_tool : depth_estimation.DepthEstimation :=
  {| depth_estimation._model := depth_network;
     depth_estimation.device := "cpu";
     depth_estimation.model_checkpoint_path :=
       "depth_anything_v2_vits.pth" |}.

(** A processor whose post-processing returns two entries, the first with
    lists of unequal lengths. *)
Definition ragged_processor : Owlv2Processor :=
  {| processor_call := fun _ image => inr (image, "cpu");
     post_process_object_detection := fun _ _ _ =>
       inr [ {| boxes := [[1.0; 2.0; 3.0; 4.0]; [5.0; 6.0; 7.0; 8.0]]%float;
                scores := [0.9]%float;
                labels := [0; 0; 0] |};
             {| boxes := [[9.0; 9.0; 9.0; 9.0]]%float;
                scores := [0.6]%float;
                labels := [7] |} ] |}.

Definition ragged_tool : owlv2.Owlv2 :=
  {| owlv2.model_config := owlv2.OWLV2Config_default;
     owlv2._model := Module_eval (Module_to network "cpu");
     owlv2._processor := ragged_processor |}.

End Demo.

(** ** Laws of the computation type and of the loops *)

Section MonadLaws.

Lemma bind_ret_l {A B} (a : A) (k : A -> M B) : bind (ret a) k = k a.
Proof. unfold bind, ret. destruct (k a); reflexivity. Qed.

Lemma bind_ret_r {A} (m : M A) : bind m ret = m.
Proof.
  destruct m as [t [e | a]]; cbn; [reflexivity |].
  now rewrite app_nil_r.
Qed.

Lemma bind_assoc {A B C} (m : M A) (f : A -> M B) (g : B -> M C) :
  bind (bind m f) g = bind m (fun a => bind (f a) g).
Proof.
  destruct m as [t [e | a]]; cbn; [reflexivity |].
  destruct (f a) as [t1 [e1 | b]]; cbn; [reflexivity |].
  destruct (g b) as [t2 r2]. now rewrite app_assoc.
Qed.

Lemma outcome_bind {A B} (m : M A) (k : A -> M B) :
  outcome (bind m k) =
  match outcome m with inl e => inl e | inr a => outcome (k a) end.
Proof.
  destruct m as [t [e | a]]; cbn; [reflexivity |].
  destruct (k a); reflexivity.
Qed.

Lemma trace_bind {A B} (m : M A) (k : A -> M B) :
  trace (bind m k) =
  trace m ++ match outcome m with inl _ => [] | inr a => trace (k a) end.
Proof.
  destruct m as [t [e | a]]; cbn; [now rewrite app_nil_r |].
  destruct (k a); reflexivity.
Qed.

Lemma outcome_bind_inr {A B} (m : M A) (k : A -> M B) (b : B) :
  outcome (bind m k) = inr b <->
  exists a, outcome m = inr a /\ outcome (k a) = inr b.
Proof.
  rewrite outcome_bind. destruct (outcome m) as [e | a]; split.
  - discriminate.
  - intros (a & Ha & _). discriminate.
  - intros Hk. now exists a.
  - intros (a' & Ha & Hk). now injection Ha as ->.
Qed.

Lemma outcome_lift {A} (r : result A) : outcome (lift r) = r.
Proof. reflexivity. Qed.

Lemma outcome_ret {A} (a : A) : outcome (ret a) = inr a.
Proof. reflexivity. Qed.

Lemma for_in_ext {A S} (f g : A -> S -> M S) (xs : list A) :
  (forall x s, f x s = g x s) -> forall s, for_in xs f s = for_in xs g s.
Proof.
  intros Hfg. induction xs as [| x xs IH]; intros s; cbn; [reflexivity |].
  rewrite Hfg. destruct (g x s) as [t [e | s']]; cbn; [reflexivity |].
  now rewrite IH.
Qed.

Lemma appending_ok {A B} (f : A -> M B) (xs : list A) :
  forall acc out,
    outcome (for_in xs (appending f) acc) = inr out <->
    exists rs, out = acc ++ rs /\
               Forall2 (fun x r => outcome (f x) = inr r) xs rs.
Proof.
  induction xs as [| x xs IH]; intros acc out; cbn.
  - split.
    + intros [= <-]. exists []. now rewrite app_nil_r.
    + intros (rs & -> & Hrs). inversion Hrs. now rewrite app_nil_r.
  - rewrite outcome_bind_inr. split.
    + intros (acc' & Hx & Hrest).
      apply outcome_bind_inr in Hx as (r & Hr & [= <-]).
      apply IH in Hrest as (rs & -> & Hrs).
      exists (r :: rs). rewrite <- app_assoc. split; [reflexivity |].
      now constructor.
    + intros (rs & -> & Hrs). inversion Hrs as [| ? r ? rs' Hr Hrs']; subst.
      exists (acc ++ [r]). split.
      * apply outcome_bind_inr. now exists r.
      * apply IH. exists rs'. now rewrite <- app_assoc.
Qed.

Lemma trace_for_in {A S} (P : event -> Prop) (f : A -> S -> M S)
    (xs : list A) :
  (forall x s, Forall P (trace (f x s))) ->
  forall s, Forall P (trace (for_in xs f s)).
Proof.
  intros Hf. induction xs as [| x xs IH]; intros s; cbn; [constructor |].
  rewrite trace_bind. apply Forall_app. split; [apply Hf |].
  destruct (outcome (f x s)); [constructor | apply IH].
Qed.

End MonadLaws.

(** ** Python lists and floats *)

Section PythonFacts.

Lemma getitem_inr {A} (l : list A) (i : Z) (a : A) :
  getitem l i = inr a ->
  - Z.of_nat (List.length l) <= i < Z.of_nat (List.length l).
Proof.
  unfold getitem. destruct (Z.ltb_spec i 0).
  - destruct (Z.leb_spec 0 (i + Z.of_nat (List.length l))); cbn;
      [| discriminate].
    destruct (Z.ltb_spec (i + Z.of_nat (List.length l)) (Z.of_nat (List.length l)));
      [| discriminate].
    intros _. lia.
  - destruct (Z.leb_spec 0 i); cbn; [| discriminate].
    destruct (Z.ltb_spec i (Z.of_nat (List.length l))); [| discriminate].
    intros _. lia.
Qed.

Lemma getitem_beyond {A} (l : list A) (i : Z) :
  Z.of_nat (List.length l) <= i ->
  getitem l i = inl (IndexError "list index out of range").
Proof.
  intros Hi. unfold getitem.
  destruct (Z.ltb_spec i 0); [lia |].
  destruct (Z.ltb_spec i (Z.of_nat (List.length l))); [lia |].
  now rewrite andb_false_r.
Qed.

Lemma getitem_nonneg {A} (l : list A) (i : Z) (a : A) :
  0 <= i -> getitem l i = inr a <-> nth_error l (Z.to_nat i) = Some a.
Proof.
  intros Hi. unfold getitem.
  destruct (Z.ltb_spec i 0); [lia |].
  destruct (Z.leb_spec 0 i); [| lia]. cbn.
  destruct (Z.ltb_spec i (Z.of_nat (List.length l))).
  - destruct (nth_error l (Z.to_nat i)) eqn:E.
    + split; intros [= ->]; reflexivity.
    + split; discriminate.
  - split; [discriminate |]. intros Hn.
    assert (Z.to_nat i < List.length l)%nat
      by (apply nth_error_Some; congruence).
    lia.
Qed.

Lemma getitem_inl {A} (l : list A) i e :
  getitem l i = inl e -> e = IndexError "list index out of range".
Proof.
  unfold getitem. destruct (_ && _); [destruct (nth_error _ _) |];
    congruence.
Qed.

Lemma getitem_head {A} (x : A) : getitem [x] 0 = inr x.
Proof. reflexivity. Qed.

(** On floats, strictly below implies below or equal. *)
Lemma ltb_leb (x y : float) : (x <? y)%float = true -> (x <=? y)%float = true.
Proof.
  rewrite ltb_spec, leb_spec. unfold SFltb, SFleb.
  destruct (SFcompare (Prim2SF x) (Prim2SF y)) as [[| |] |];
    (discriminate || reflexivity).
Qed.

Lemma in_zip3 {A B C} (a : list A) (b : list B) (c : list C) x y z :
  In (x, y, z) (zip3 a b c) -> In x a /\ In y b /\ In z c.
Proof.
  revert b c. induction a as [| x' a IH]; intros [| y' b] [| z' c]; cbn;
    try contradiction.
  intros [[= -> -> ->] | Hin]; [now auto |].
  apply IH in Hin as (? & ? & ?). now auto.
Qed.

End PythonFacts.

(** ** The detection wrapper, run by run *)

Section Owlv2Facts.
Context `{Library}.
Import owlv2.

Lemma Forall2_map_left {A B C} (R : B -> C -> Prop) (g : A -> B) xs ys :
  Forall2 R (List.map g xs) ys <-> Forall2 (fun x y => R (g x) y) xs ys.
Proof.
  revert ys. induction xs as [| x xs IH]; intros ys; cbn.
  - split; intros Hf; inversion Hf; constructor.
  - split; intros Hf; inversion Hf; subst; constructor; trivial;
      now apply IH.
Qed.

(** A per-image run is the library stage followed by the record loop. *)
Lemma run_inference_split self image texts conf :
  __run_inference self image texts conf =
  bind (detections self image texts conf)
       (fun ds => for_in ds (appending (record_of texts)) []).
Proof.
  unfold __run_inference, detections.
  destruct (processor_call _ texts image) as [e | inputs]; cbn;
    [reflexivity |].
  destruct (forward _ _ _ _) as [e | outputs]; cbn; [reflexivity |].
  destruct (post_process_object_detection _ _ _ _) as [e | results]; cbn;
    [reflexivity |].
  destruct (getitem results 0) as [e | r]; cbn; [reflexivity |].
  rewrite (for_in_ext _ (appending (record_of texts))).
  - destruct (for_in _ _ _); reflexivity.
  - intros [[box sc] lb] acc. unfold appending, record_of.
    destruct (getitem texts 0) as [e | t]; cbn; [reflexivity |].
    destruct (getitem t lb); reflexivity.
Qed.

Lemma run_inference_ok self image texts conf recs :
  outcome (__run_inference self image texts conf) = inr recs <->
  exists ds, outcome (detections self image texts conf) = inr ds /\
             Forall2 (fun d r => outcome (record_of texts d) = inr r) ds recs.
Proof.
  rewrite run_inference_split, outcome_bind_inr.
  split; intros (ds & Hds & Hloop); exists ds; split; trivial.
  - apply appending_ok in Hloop as (rs & -> & Hrs). exact Hrs.
  - apply appending_ok. now exists recs.
Qed.

Lemma record_of_ok prompts box sc lb r :
  outcome (record_of [prompts] (box, sc, lb)) = inr r <->
  exists text, getitem prompts lb = inr text /\
               r = {| label := text; score := sc;
                      bbox := List.map (fun c => round c 2) box |}.
Proof.
  unfold record_of, lift. rewrite getitem_head. cbn.
  destruct (getitem prompts lb) as [e | text]; cbn.
  - split; [discriminate | intros (t & Ht & _); discriminate].
  - split.
    + intros [= <-]. now exists text.
    + intros (t & Ht & ->). injection Ht as <-. reflexivity.
Qed.

(** A call returns exactly when one of [image] and [video] is given and
    every per-image run returns; its value lists the runs' values. *)
Lemma call_ok self prompts image video out :
  outcome (__call__ self prompts image video) = inr out <->
  xorb (is_None image) (is_None video) = true /\
  Forall2 (fun img recs =>
             outcome (__run_inference self img [prompts]
                        (confidence (model_config self))) = inr recs)
          (call_images image video) out.
Proof.
  destruct image as [image |], video as [video |]; unfold __call__;
    cbn [is_None andb negb xorb call_images].
  - split; [discriminate | intros [[=] _]].
  - rewrite bind_assoc, outcome_bind.
    destruct (outcome (__run_inference _ _ _ _)) as [e | r] eqn:E.
    + split; [discriminate |]. intros [_ Hf].
      inversion Hf; subst. congruence.
    + cbn. split.
      * intros [= <-]. split; [reflexivity |].
        constructor; [exact E | constructor].
      * intros [_ Hf]. inversion Hf as [| ? ? ? ? Hr Hnil]; subst.
        inversion Hnil; subst. congruence.
  - rewrite Forall2_map_left, bind_ret_l, bind_assoc, outcome_bind.
    change (for_in video _ [])
      with (for_in video
              (appending (fun frame =>
                 __run_inference self
                   (Image_convert (Image_fromarray frame) "RGB") [prompts]
                   (confidence (model_config self)))) []).
    destruct (outcome (for_in video _ [])) as [e | l] eqn:E.
    + split; [discriminate |]. intros [_ Hf].
      assert (Hok : outcome (for_in video
                (appending (fun frame =>
                   __run_inference self
                     (Image_convert (Image_fromarray frame) "RGB") [prompts]
                     (confidence (model_config self)))) []) = inr out)
        by (apply appending_ok; now exists out).
      congruence.
    + apply appending_ok in E as (rs & -> & Hrs). cbn.
      split.
      * intros [= <-]. now split.
      * intros [_ Hf]. f_equal.
        pose proof (proj2 (appending_ok _ video [] out)
                      (ex_intro _ out (conj eq_refl Hf))) as Hout.
        pose proof (proj2 (appending_ok _ video [] rs)
                      (ex_intro _ rs (conj eq_refl Hrs))) as Hrs'.
        congruence.
  - split; [discriminate | intros [[=] _]].
Qed.

End Owlv2Facts.

(** ** Which exceptions a run can end with *)

Section Failures.
Context `{Library}.
Import owlv2.

Lemma raises_only_bind {A B} P (m : M A) (k : A -> M B) :
  raises_only P m -> (forall a, raises_only P (k a)) ->
  raises_only P (bind m k).
Proof.
  unfold raises_only. rewrite outcome_bind.
  destruct (outcome m) as [e | a]; [trivial |]. intros _ Hk. apply Hk.
Qed.

Lemma raises_only_for_in {A S} P (f : A -> S -> M S) xs :
  (forall x s, raises_only P (f x s)) ->
  forall s, raises_only P (for_in xs f s).
Proof.
  intros Hf. induction xs as [| x xs IH]; intros s; cbn.
  - exact I.
  - now apply raises_only_bind.
Qed.

Lemma raises_only_lib {A} (r : lib_exception + A) :
  raises_only not_ValueError (lib r).
Proof. destruct r; exact I. Qed.

Lemma raises_only_getitem {A} (l : list A) i :
  raises_only not_ValueError (lift (getitem l i)).
Proof.
  unfold raises_only, getitem. cbn.
  destruct (_ && _); [destruct (nth_error _ _) |]; exact I.
Qed.

Lemma raises_only_ret {A} P (a : A) : raises_only P (ret a).
Proof. exact I. Qed.

Lemma raises_only_emit P ev : raises_only P (emit ev).
Proof. exact I. Qed.

Create HintDb raises.
Hint Resolve raises_only_lib raises_only_getitem raises_only_ret
  raises_only_emit : raises.

Lemma run_inference_raises self image texts conf :
  raises_only not_ValueError (__run_inference self image texts conf).
Proof.
  unfold __run_inference.
  repeat (apply raises_only_bind; [auto with raises | intros ?]).
  apply raises_only_for_in. intros [[box sc] lb] acc.
  repeat (apply raises_only_bind; [auto with raises | intros ?]).
  auto with raises.
Qed.

End Failures.

(** ** The input checks of the two tools *)

Section Validation.
Context `{Library}.

(** C1. [Owlv2.__call__] raises the input-validation error (ValueError)
    when [image] and [video] are both given and when neither is; when
    exactly one is given, whatever the call ends with is not a
    ValueError. *)
Theorem call_validates_image_video
    (self : owlv2.Owlv2) (prompts : list string)
    (image : option PILImage) (video : option (list ndarray)) :
  match image, video with
  | None, None =>
      outcome (owlv2.__call__ self prompts image video) =
      inl (ValueError "Either 'image' or 'video' must be provided.")
  | Some _, Some _ =>
      outcome (owlv2.__call__ self prompts image video) =
      inl (ValueError "Only one of 'image' or 'video' can be provided.")
  | _, _ =>
      forall msg,
        outcome (owlv2.__call__ self prompts image video) <>
        inl (ValueError msg)
  end.
Proof.
  destruct image as [image |], video as [video |];
    try reflexivity; intros msg Hout.
  - assert (Hr : raises_only not_ValueError
                   (owlv2.__call__ self prompts (Some image) None)).
    { unfold owlv2.__call__. cbn [owlv2.is_None andb negb].
      apply raises_only_bind;
        [apply raises_only_bind;
           [apply run_inference_raises | intros r; exact I] |].
      intros inferences. apply raises_only_bind; [exact I |].
      intros [l |]; exact I. }
    unfold raises_only in Hr. rewrite Hout in Hr. exact Hr.
  - assert (Hr : raises_only not_ValueError
                   (owlv2.__call__ self prompts None (Some video))).
    { unfold owlv2.__call__. cbn [owlv2.is_None andb negb].
      apply raises_only_bind; [exact I | intros _].
      apply raises_only_bind; [| intros [l |]; exact I].
      apply raises_only_bind; [| intros l; exact I].
      apply raises_only_for_in. intros frame acc.
      apply raises_only_bind; [apply run_inference_raises |].
      intros r; exact I. }
    unfold raises_only in Hr. rewrite Hout in Hr. exact Hr.
Qed.

(** C5. [DepthEstimation.__call__] goes on to the network with a [str]
    (through [cv2.imread]) and with a PIL image (through [cv2.cvtColor]),
    so nothing but the library can raise there; every other argument
    raises the input-validation error. *)
Theorem depth_call_accepts_path_or_image
    (self : depth_estimation.DepthEstimation) (image : pyobj) :
  match image with
  | PyStr path =>
      outcome (depth_estimation.__call__ self image) =
      match infer_image (depth_estimation._model self) (cv2_imread path) with
      | inl e => inl (LibraryError e)
      | inr depth => inr {| depth_estimation.map := depth |}
      end
  | PyImage im =>
      outcome (depth_estimation.__call__ self image) =
      match infer_image (depth_estimation._model self)
              (Some (cv2_cvtColor (np_array im) COLOR_RGB2BGR)) with
      | inl e => inl (LibraryError e)
      | inr depth => inr {| depth_estimation.map := depth |}
      end
  | _ =>
      outcome (depth_estimation.__call__ self image) =
      inl (ValueError
             "Invalid image type. Expected str or PIL.Image.Image.")
  end.
Proof.
  destruct image; try reflexivity; unfold depth_estimation.__call__;
    rewrite bind_ret_l, outcome_bind;
    destruct (infer_image _ _); reflexivity.
Qed.

End Validation.

(** ** What a call returns *)

Section Results.
Context `{Library}.
Import owlv2.

Lemma Forall2_in_right {A B} (R : A -> B -> Prop) xs ys y :
  Forall2 R xs ys -> In y ys -> exists x, In x xs /\ R x y.
Proof.
  induction 1 as [| x y' xs ys Hxy _ IH]; cbn; [contradiction |].
  intros [<- | Hin].
  - exists x. now auto.
  - destruct (IH Hin) as (x' & ? & ?). exists x'. now auto.
Qed.

Lemma Forall2_in_left {A B} (R : A -> B -> Prop) xs ys x :
  Forall2 R xs ys -> In x xs -> exists y, In y ys /\ R x y.
Proof.
  induction 1 as [| x' y xs ys Hxy _ IH]; cbn; [contradiction |].
  intros [<- | Hin].
  - exists y. now auto.
  - destruct (IH Hin) as (y' & ? & ?). exists y'. now auto.
Qed.

Lemma Forall2_at {A B} (R : A -> B -> Prop) xs ys :
  Forall2 R xs ys ->
  forall k x, nth_error xs k = Some x ->
              exists y, nth_error ys k = Some y /\ R x y.
Proof.
  induction 1 as [| x' y xs ys Hxy _ IH]; intros [| k] x; cbn;
    try discriminate.
  - intros [= <-]. now exists y.
  - apply IH.
Qed.

Lemma Forall2_weaken {A B} (R S : A -> B -> Prop) xs ys :
  (forall x y, R x y -> S x y) -> Forall2 R xs ys -> Forall2 S xs ys.
Proof. intros HRS. induction 1; constructor; auto. Qed.

(** Where the triples of a run come from. *)
Lemma detections_inr self image texts conf ds :
  outcome (detections self image texts conf) = inr ds ->
  exists outputs results r,
    post_process_object_detection (_processor self) outputs conf
      [(snd (Image_size image), fst (Image_size image))] = inr results /\
    In r results /\
    ds = zip3 (boxes r) (scores r) (labels r).
Proof.
  unfold detections.
  destruct (processor_call _ texts image) as [e | inputs]; cbn;
    [discriminate |].
  destruct (forward _ _ _ _) as [e | outputs]; cbn; [discriminate |].
  destruct (post_process_object_detection _ _ _ _) as [e | results] eqn:E;
    cbn; [discriminate |].
  destruct (getitem results 0) as [e | r] eqn:G; cbn; [discriminate |].
  intros [= <-]. exists outputs, results, r. repeat split; trivial.
  apply getitem_nonneg in G; [| lia]. now apply nth_error_In in G.
Qed.

Lemma record_of_inl prompts d e :
  outcome (record_of [prompts] d) = inl e ->
  e = IndexError "list index out of range".
Proof.
  destruct d as [[box sc] lb]. unfold record_of, lift.
  rewrite getitem_head. cbn.
  destruct (getitem prompts lb) as [e' | text] eqn:G; cbn; [| discriminate].
  intros [= <-]. eapply getitem_inl; eassumption.
Qed.

(** The record loop stops with IndexError once a label index lies at
    or beyond the number of prompts. *)
Lemma records_stop_at_bad_index prompts ds d :
  In d ds -> Z.of_nat (List.length prompts) <= snd d ->
  forall acc,
    outcome (for_in ds (appending (record_of [prompts])) acc) =
    inl (IndexError "list index out of range").
Proof.
  intros Hin Hbad. induction ds as [| d0 ds IH]; [contradiction |].
  intros acc. cbn [for_in]. unfold appending at 1.
  rewrite bind_assoc, outcome_bind.
  destruct (outcome (record_of [prompts] d0)) as [e | r] eqn:E.
  - f_equal. eapply record_of_inl; eassumption.
  - rewrite bind_ret_l. destruct Hin as [-> | Hin]; [| now apply IH].
    destruct d as [[box sc] lb].
    apply record_of_ok in E as (text & Htext & _).
    cbn in Hbad. rewrite (getitem_beyond _ _ Hbad) in Htext.
    discriminate.
Qed.

(** C2. A video call returns exactly when every frame's run returns, and
    then its value pairs off with the frames: as many result lists as
    frames, the k-th being what [__run_inference] returns for the k-th
    frame alone. *)
Theorem video_one_result_per_frame
    (self : Owlv2) (prompts : list string) (video : list ndarray) :
  let run frame :=
    __run_inference self (Image_convert (Image_fromarray frame) "RGB")
      [prompts] (confidence (model_config self)) in
  (forall out,
     outcome (__call__ self prompts None (Some video)) = inr out <->
     Forall2 (fun frame recs => outcome (run frame) = inr recs) video out)
  /\
  (forall out,
     outcome (__call__ self prompts None (Some video)) = inr out ->
     List.length out = List.length video /\
     forall k frame,
       nth_error video k = Some frame ->
       exists recs, nth_error out k = Some recs /\
                    outcome (run frame) = inr recs).
Proof.
  intros run.
  assert (Hiff : forall out,
    outcome (__call__ self prompts None (Some video)) = inr out <->
    Forall2 (fun frame recs => outcome (run frame) = inr recs) video out).
  { intros out. rewrite call_ok. cbn [call_images is_None xorb].
    rewrite Forall2_map_left. intuition. }
  split; [exact Hiff |].
  intros out Hout. apply Hiff in Hout. split.
  - symmetry. eapply Forall2_length; eassumption.
  - intros k frame Hk. eapply Forall2_at in Hout; eassumption.
Qed.

(** C4. Provided the processor's post-processing keeps only scores above
    the threshold it is handed, every record a call returns has a score
    at or above [model_config.confidence]: the wrapper hands that very
    threshold over and copies the scores. *)
Theorem scores_meet_confidence
    (self : Owlv2) (prompts : list string)
    (image : option PILImage) (video : option (list ndarray))
    (out : list (list Owlv2InferenceData)) :
  thresholds (_processor self) ->
  outcome (__call__ self prompts image video) = inr out ->
  forall recs r,
    In recs out -> In r recs ->
    (confidence (model_config self) <=? score r)%float = true.
Proof.
  intros Hthr Hout recs r Hrecs Hr.
  apply call_ok in Hout as [_ Hruns].
  destruct (Forall2_in_right _ _ _ _ Hruns Hrecs) as (img & _ & Hrun).
  apply run_inference_ok in Hrun as (ds & Hds & Hloop).
  destruct (Forall2_in_right _ _ _ _ Hloop Hr) as ([[box sc] lb] & Hd & Hrec).
  apply record_of_ok in Hrec as (text & _ & ->). cbn.
  apply detections_inr in Hds as (outputs & results & r0 & Hpost & Hr0 & ->).
  apply in_zip3 in Hd as (_ & Hsc & _).
  apply ltb_leb. eapply Hthr; eassumption.
Qed.

(** C6. In every record a call returns, [label] is [prompts[l]] for the
    label index [l] the post-processing decoded, and [bbox] is the decoded
    box with [round(c, 2)] applied to each coordinate; the records follow
    the decoded triples one for one. *)
Theorem labels_from_prompts_boxes_rounded
    (self : Owlv2) (prompts : list string)
    (image : option PILImage) (video : option (list ndarray))
    (out : list (list Owlv2InferenceData)) :
  outcome (__call__ self prompts image video) = inr out ->
  Forall2
    (fun img recs =>
       exists ds,
         outcome (detections self img [prompts]
                    (confidence (model_config self))) = inr ds /\
         Forall2
           (fun d r =>
              getitem prompts (snd d) = inr (label r) /\
              bbox r = List.map (fun c => round c 2) (fst (fst d)))
           ds recs)
    (call_images image video) out.
Proof.
  intros Hout. apply call_ok in Hout as [_ Hruns].
  revert Hruns. apply Forall2_weaken. intros img recs Hrun.
  apply run_inference_ok in Hrun as (ds & Hds & Hloop).
  exists ds. split; [exact Hds |].
  revert Hloop. apply Forall2_weaken. intros [[box sc] lb] r Hrec.
  apply record_of_ok in Hrec as (text & Htext & ->). now split.
Qed.

(** C10. The label index goes into [prompts[...]] unguarded. A call
    returns only if every decoded label index, in every image it ran on,
    is below the number of prompts; and a run whose post-processing
    decoded an index at or beyond that number ends in IndexError
    instead of returning records. *)
Theorem label_index_unguarded
    (self : Owlv2) (prompts : list string)
    (image : option PILImage) (video : option (list ndarray)) :
  (forall out,
     outcome (__call__ self prompts image video) = inr out ->
     forall img,
       In img (call_images image video) ->
       exists ds,
         outcome (detections self img [prompts]
                    (confidence (model_config self))) = inr ds /\
         forall box sc lb,
           In (box, sc, lb) ds -> lb < Z.of_nat (List.length prompts))
  /\
  (forall img ds box sc lb,
     outcome (detections self img [prompts]
                (confidence (model_config self))) = inr ds ->
     In (box, sc, lb) ds ->
     Z.of_nat (List.length prompts) <= lb ->
     outcome (__run_inference self img [prompts]
                (confidence (model_config self))) =
     inl (IndexError "list index out of range")).
Proof.
  split.
  - intros out Hout img Himg. apply call_ok in Hout as [_ Hruns].
    destruct (Forall2_in_left _ _ _ _ Hruns Himg) as (recs & _ & Hrun).
    apply run_inference_ok in Hrun as (ds & Hds & Hloop).
    exists ds. split; [exact Hds |]. intros box sc lb Hd.
    destruct (Forall2_in_left _ _ _ _ Hloop Hd) as (r & _ & Hrec).
    apply record_of_ok in Hrec as (text & Htext & _).
    apply getitem_inr in Htext. lia.
  - intros img ds box sc lb Hds Hd Hlb.
    rewrite run_inference_split, outcome_bind, Hds.
    now apply records_stop_at_bad_index with (d := (box, sc, lb)).
Qed.

End Results.

(** ** Suppression and empty results *)

Section NoPostFilter.
Context `{Library}.
Import owlv2.

Lemma Forall2_map_eq {A B C} (f : A -> C) (g : B -> C) xs ys :
  Forall2 (fun x y => g y = f x) xs ys -> List.map g ys = List.map f xs.
Proof. induction 1; cbn; congruence. Qed.

(** C3 (as the code has it). [Owlv2.__call__] takes [prompts], [image] and
    [video] and no non-max-suppression threshold, and it suppresses
    nothing: for each image the returned records are the decoded
    detections one for one, scores unchanged, so overlapping detections of
    one label all stay. *)
Theorem call_applies_no_suppression
    (self : Owlv2) (prompts : list string)
    (image : option PILImage) (video : option (list ndarray))
    (out : list (list Owlv2InferenceData)) :
  outcome (__call__ self prompts image video) = inr out ->
  ~ In "nms_threshold" __call___parameters /\
  Forall2
    (fun img recs =>
       exists ds,
         outcome (detections self img [prompts]
                    (confidence (model_config self))) = inr ds /\
         List.length recs = List.length ds /\
         List.map score recs = List.map (fun d => snd (fst d)) ds)
    (call_images image video) out.
Proof.
  intros Hout. split.
  - cbn. intros [E | [E | [E | []]]]; discriminate.
  - apply call_ok in Hout as [_ Hruns].
    revert Hruns. apply Forall2_weaken. intros img recs Hrun.
    apply run_inference_ok in Hrun as (ds & Hds & Hloop).
    exists ds. split; [exact Hds |]. split.
    + symmetry. eapply Forall2_length; eassumption.
    + apply Forall2_map_eq.
      revert Hloop. apply Forall2_weaken. intros [[box sc] lb] r Hrec.
      apply record_of_ok in Hrec as (text & _ & ->). reflexivity.
Qed.

(** C7 (as the code has it). A run whose post-processing decoded nothing
    returns the empty list and raises nothing; for an image call the
    returned value is then [[[]]], one empty list of records. *)
Theorem no_detections_give_empty_list
    (self : Owlv2) (prompts : list string) :
  (forall img texts conf,
     outcome (detections self img texts conf) = inr [] ->
     outcome (__run_inference self img texts conf) = inr [])
  /\
  (forall image,
     outcome (detections self (Image_convert image "RGB") [prompts]
                (confidence (model_config self))) = inr [] ->
     outcome (__call__ self prompts (Some image) None) = inr [[]] /\
     to_py [[]] = PyList [PyList []]).
Proof.
  assert (Hrun : forall img texts conf,
    outcome (detections self img texts conf) = inr [] ->
    outcome (__run_inference self img texts conf) = inr []).
  { intros img texts conf Hds. apply run_inference_ok.
    exists []. split; [exact Hds | constructor]. }
  split; [exact Hrun |].
  intros image Hds. split; [| reflexivity].
  apply call_ok. split; [reflexivity |].
  cbn [call_images]. constructor; [| constructor]. now apply Hrun.
Qed.

End NoPostFilter.

(** ** Devices *)

Section Devices.
Context `{Library}.
Import owlv2.

Lemma trace_record_of texts d : trace (record_of texts d) = [].
Proof.
  destruct d as [[box sc] lb]. unfold record_of, lift.
  destruct (getitem texts 0) as [e | t]; cbn; [reflexivity |].
  destruct (getitem t lb); reflexivity.
Qed.

Lemma trace_detections self image texts conf :
  Forall (placed_on (Device_value (device (model_config self)))
                    (module_device (_model self)))
         (trace (detections self image texts conf)).
Proof.
  unfold detections.
  destruct (processor_call _ texts image) as [e | inputs]; cbn;
    [constructor |].
  destruct (forward _ _ _ _) as [e | outputs]; cbn;
    [repeat constructor |].
  destruct (post_process_object_detection _ _ _ _) as [e | results]; cbn;
    [repeat constructor |].
  destruct (getitem results 0) as [e | r]; cbn; repeat constructor.
Qed.

Lemma trace_run_inference self image texts conf :
  Forall (placed_on (Device_value (device (model_config self)))
                    (module_device (_model self)))
         (trace (__run_inference self image texts conf)).
Proof.
  rewrite run_inference_split, trace_bind. apply Forall_app. split.
  - apply trace_detections.
  - destruct (outcome _) as [e | ds]; [constructor |].
    apply trace_for_in. intros d acc. unfold appending.
    rewrite trace_bind, trace_record_of.
    destruct (outcome _); repeat constructor.
Qed.

Lemma trace_call self prompts image video :
  Forall (placed_on (Device_value (device (model_config self)))
                    (module_device (_model self)))
         (trace (__call__ self prompts image video)).
Proof.
  destruct image as [image |], video as [video |]; unfold __call__;
    cbn [is_None andb negb]; try constructor.
  - rewrite bind_assoc, trace_bind. apply Forall_app. split.
    + apply trace_run_inference.
    + destruct (outcome _); repeat constructor.
  - rewrite bind_ret_l, bind_assoc, trace_bind. apply Forall_app. split.
    + apply trace_for_in. intros frame acc.
      rewrite trace_bind. apply Forall_app. split.
      * apply trace_run_inference.
      * destruct (outcome _); repeat constructor.
    + destruct (outcome _); repeat constructor.
Qed.

Lemma trace_records texts ds acc :
  trace (for_in ds (appending (record_of texts)) acc) = [].
Proof.
  assert (Hnone : Forall (fun _ => False)
                    (trace (for_in ds (appending (record_of texts)) acc))).
  { apply trace_for_in. intros d acc'. unfold appending.
    rewrite trace_bind, trace_record_of.
    destruct (outcome _); constructor. }
  destruct (trace _) as [| ev t]; [reflexivity |].
  now inversion Hnone.
Qed.

(** The requests of one run, in order: none if the processor raised,
    else inputs moved, autocast opened, forward pass. *)
Lemma trace_run_inference_exact self image texts conf :
  trace (__run_inference self image texts conf) =
  match processor_call (_processor self) texts image with
  | inl _ => []
  | inr _ =>
      [EvInputsTo (Device_value (device (model_config self)));
       EvAutocast (Device_value (device (model_config self)));
       EvForward (module_device (_model self))]
  end.
Proof.
  rewrite run_inference_split, trace_bind.
  assert (Hds : trace (detections self image texts conf) =
                match processor_call (_processor self) texts image with
                | inl _ => []
                | inr _ =>
                    [EvInputsTo (Device_value (device (model_config self)));
                     EvAutocast (Device_value (device (model_config self)));
                     EvForward (module_device (_model self))]
                end).
  { unfold detections.
    destruct (processor_call _ texts image) as [e | inputs]; cbn;
      [reflexivity |].
    destruct (forward _ _ _ _) as [e | outputs]; cbn; [reflexivity |].
    destruct (post_process_object_detection _ _ _ _) as [e | results]; cbn;
      [reflexivity |].
    destruct (getitem results 0); reflexivity. }
  rewrite Hds.
  destruct (outcome _) as [e | ds]; [| rewrite trace_records];
    apply app_nil_r.
Qed.

(** Construction puts the network on the configured device and in
    inference mode. *)
Lemma init_places_network cfg self :
  outcome (__init__ cfg) = inr self ->
  model_config self =
    match cfg with Some c => c | None => OWLV2Config_default end /\
  module_device (_model self) = Device_value (device (model_config self)) /\
  training (_model self) = false.
Proof.
  unfold __init__.
  destruct (Owlv2ForObjectDetection_from_pretrained _) as [e | model]; cbn;
    [discriminate |].
  destruct (Owlv2Processor_from_pretrained _) as [e | processor]; cbn;
    [discriminate |].
  intros [= <-]. repeat split.
Qed.

(** C9. [Owlv2.to(d)] replaces the device of the network and nothing
    else: [model_config] (its [device] included) and the processor are as
    before. In every later [__call__] the inputs are moved to, and
    autocast is opened on, [model_config.device] as it was, whatever [d]
    is, while the forward passes run on the network now sitting on [d];
    an image call whose processor returns makes exactly these three
    requests. *)
Theorem to_moves_only_the_network (self : Owlv2) (d : Device) :
  model_config (to self d) = model_config self /\
  _processor (to self d) = _processor self /\
  forward (_model (to self d)) = forward (_model self) /\
  module_device (_model (to self d)) = Device_value d /\
  (forall prompts image video,
     Forall (placed_on (Device_value (device (model_config self)))
                       (Device_value d))
            (trace (__call__ (to self d) prompts image video))) /\
  (forall prompts image,
     trace (__call__ (to self d) prompts (Some image) None) =
     match processor_call (_processor self) [prompts]
             (Image_convert image "RGB") with
     | inl _ => []
     | inr _ =>
         [EvInputsTo (Device_value (device (model_config self)));
          EvAutocast (Device_value (device (model_config self)));
          EvForward (Device_value d)]
     end).
Proof.
  repeat split.
  - intros prompts image video.
    exact (trace_call (to self d) prompts image video).
  - intros prompts image. unfold __call__. cbn [is_None andb negb].
    rewrite bind_assoc, trace_bind, trace_run_inference_exact.
    cbn [to _processor model_config _model Module_to module_device].
    destruct (outcome _); cbn; now rewrite app_nil_r.
Qed.

End Devices.

(** ** More on a single run *)

Section RunFacts.
Context `{Library}.
Import owlv2.

Lemma bind_inl {A B} (m : M A) (k : A -> M B) e :
  outcome m = inl e -> bind m k = (trace m, inl e).
Proof. destruct m as [t [e' | a]]; cbn; congruence. Qed.

Lemma for_in_app {A S} (xs ys : list A) (body : A -> S -> M S) :
  forall s,
    for_in (xs ++ ys) body s = bind (for_in xs body s) (for_in ys body).
Proof.
  induction xs as [| x xs IH]; intros s; cbn [app for_in].
  - now rewrite bind_ret_l.
  - rewrite bind_assoc. destruct (body x s) as [t [e | s']]; cbn;
      [reflexivity |].
    now rewrite IH.
Qed.

Lemma getitem_valid {A} (l : list A) (i : Z) :
  valid_index (List.length l) i -> exists a, getitem l i = inr a.
Proof.
  unfold valid_index, getitem. intros Hi.
  set (n := Z.of_nat (List.length l)) in *.
  set (j := if i <? 0 then i + n else i).
  assert (Hj : 0 <= j < n) by (subst j; destruct (Z.ltb_spec i 0); lia).
  destruct (Z.leb_spec 0 j); [| lia].
  destruct (Z.ltb_spec j n); [| lia]. cbn.
  destruct (nth_error l (Z.to_nat j)) as [a |] eqn:E; [now exists a |].
  apply nth_error_None in E. subst n. lia.
Qed.

Lemma detections_inr_head self image texts conf ds :
  outcome (detections self image texts conf) = inr ds ->
  exists inputs outputs results r,
    processor_call (_processor self) texts image = inr inputs /\
    forward (_model self) (module_device (_model self))
      (Device_value (device (model_config self)))
      (BatchFeature_to inputs (Device_value (device (model_config self))))
      = inr outputs /\
    post_process_object_detection (_processor self) outputs conf
      [(snd (Image_size image), fst (Image_size image))] = inr results /\
    getitem results 0 = inr r /\
    ds = zip3 (boxes r) (scores r) (labels r).
Proof.
  unfold detections.
  destruct (processor_call _ texts image) as [e | inputs]; cbn;
    [discriminate |].
  destruct (forward _ _ _ _) as [e | outputs] eqn:F; cbn; [discriminate |].
  destruct (post_process_object_detection _ _ _ _) as [e | results] eqn:E;
    cbn; [discriminate |].
  destruct (getitem results 0) as [e | r] eqn:G; cbn; [discriminate |].
  intros [= <-]. exists inputs, outputs, results, r. now repeat split.
Qed.

Lemma zip3_length {A B C} (a : list A) (b : list B) (c : list C) :
  List.length (zip3 a b c) =
  Nat.min (List.length a) (Nat.min (List.length b) (List.length c)).
Proof.
  revert b c. induction a as [| x a IH]; intros [| y b] [| z c]; cbn;
    try reflexivity.
  now rewrite IH.
Qed.

End RunFacts.

(** ** Indexing and zipping inside a run *)

Section RunBounds.
Context `{Library}.
Import owlv2.

(** X1. An image call returns exactly when the run on
    [image.convert("RGB")] returns, and its value is the one-element list
    holding that run's records. *)
Theorem image_call_single_result
    (self : Owlv2) (prompts : list string) (image : PILImage)
    (out : list (list Owlv2InferenceData)) :
  outcome (__call__ self prompts (Some image) None) = inr out <->
  exists recs,
    outcome (__run_inference self (Image_convert image "RGB") [prompts]
               (confidence (model_config self))) = inr recs /\
    out = [recs].
Proof.
  rewrite call_ok. cbn [call_images is_None xorb]. split.
  - intros [_ Hf]. inversion Hf as [| img recs ? rest Hrun Hrest]; subst.
    inversion Hrest; subst. now exists recs.
  - intros (recs & Hrun & ->). split; [reflexivity |].
    constructor; [exact Hrun | constructor].
Qed.

(** X2. Once the library stage of a run has decoded its triples, the run
    returns exactly when every decoded label index is a valid Python index
    of [prompts], that is, lies in [-len(prompts), len(prompts)). *)
Theorem run_returns_iff_indices_valid
    (self : Owlv2) (prompts : list string) (image : PILImage)
    (conf : float) (ds : list (list float * float * Z)) :
  outcome (detections self image [prompts] conf) = inr ds ->
  ((exists recs,
      outcome (__run_inference self image [prompts] conf) = inr recs) <->
   (forall d, In d ds -> valid_index (List.length prompts) (snd d))).
Proof.
  intros Hds. split.
  - intros (recs & Hrun) [[box sc] lb] Hd.
    apply run_inference_ok in Hrun as (ds' & Hds' & Hloop).
    assert (ds' = ds) by congruence. subst ds'.
    destruct (Forall2_in_left _ _ _ _ Hloop Hd) as (r & _ & Hrec).
    apply record_of_ok in Hrec as (text & Htext & _).
    apply getitem_inr in Htext. exact Htext.
  - intros Hvalid.
    assert (Hrecs : exists recs,
      Forall2 (fun d r => outcome (record_of [prompts] d) = inr r) ds recs).
    { clear Hds. induction ds as [| [[box sc] lb] ds IH].
      - exists []. constructor.
      - destruct IH as (recs & Hrecs);
          [intros d Hd; apply Hvalid; now right |].
        destruct (getitem_valid prompts lb) as (text & Htext);
          [exact (Hvalid (box, sc, lb) (or_introl eq_refl)) |].
        eexists (_ :: recs). constructor; [| exact Hrecs].
        apply record_of_ok. exists text. split; [exact Htext | reflexivity]. }
    destruct Hrecs as (recs & Hrecs). exists recs.
    apply run_inference_ok. now exists ds.
Qed.

(** X3. With an empty prompt list, a run that decoded any detection at
    all ends in IndexError: there is no prompt to label it with. *)
Theorem empty_prompts_reject_detections
    (self : Owlv2) (image : PILImage) (conf : float)
    (d : list float * float * Z) (ds : list (list float * float * Z)) :
  outcome (detections self image [[]] conf) = inr (d :: ds) ->
  outcome (__run_inference self image [[]] conf) =
  inl (IndexError "list index out of range").
Proof.
  intros Hds. rewrite run_inference_split, outcome_bind, Hds.
  cbn [for_in]. unfold appending at 1. rewrite bind_assoc, outcome_bind.
  destruct (outcome (record_of [[]] d)) as [e | r] eqn:E.
  - f_equal. eapply record_of_inl; eassumption.
  - destruct d as [[box sc] lb].
    apply record_of_ok in E as (text & Htext & _).
    apply getitem_inr in Htext. cbn in Htext. lia.
Qed.

(** X4. A run that returns gives as many records as the shortest of the
    "boxes", "scores" and "labels" entries of [results[0]] is long, where
    [results] is what the post-processing returned for this run's own
    forward pass: [zip] drops what exceeds it, silently. *)
Theorem record_count_is_shortest_length
    (self : Owlv2) (image : PILImage) (texts : list (list string))
    (conf : float) (inputs : BatchFeature) (outputs : ModelOutput)
    (results : list DetectionDict) (r : DetectionDict)
    (recs : list Owlv2InferenceData) :
  processor_call (_processor self) texts image = inr inputs ->
  forward (_model self) (module_device (_model self))
    (Device_value (device (model_config self)))
    (BatchFeature_to inputs (Device_value (device (model_config self))))
    = inr outputs ->
  post_process_object_detection (_processor self) outputs conf
    [(snd (Image_size image), fst (Image_size image))] = inr results ->
  getitem results 0 = inr r ->
  outcome (__run_inference self image texts conf) = inr recs ->
  List.length recs =
  Nat.min (List.length (boxes r))
          (Nat.min (List.length (scores r)) (List.length (labels r))).
Proof.
  intros Hproc Hfwd Hpost Hr Hrun.
  apply run_inference_ok in Hrun as (ds & Hds & Hloop).
  apply detections_inr_head in Hds
    as (inputs' & outputs' & results' & r' & Hproc' & Hfwd' & Hpost' & Hr'
        & ->).
  assert (inputs' = inputs) by congruence. subst inputs'.
  assert (outputs' = outputs) by congruence. subst outputs'.
  assert (results' = results) by congruence. subst results'.
  assert (r' = r) by congruence. subst r'.
  rewrite <- zip3_length. symmetry. eapply Forall2_length; eassumption.
Qed.

(** X5. Of the list the post-processing returns only the first entry is
    read: an empty list ends the run in IndexError, and entries after the
    first change nothing. *)
Theorem only_first_result_is_read
    (self : Owlv2) (image : PILImage) (texts : list (list string))
    (conf : float) (inputs : BatchFeature) (outputs : ModelOutput)
    (results : list DetectionDict) :
  processor_call (_processor self) texts image = inr inputs ->
  forward (_model self) (module_device (_model self))
    (Device_value (device (model_config self)))
    (BatchFeature_to inputs (Device_value (device (model_config self))))
    = inr outputs ->
  post_process_object_detection (_processor self) outputs conf
    [(snd (Image_size image), fst (Image_size image))] = inr results ->
  outcome (__run_inference self image texts conf) =
  match results with
  | [] => inl (IndexError "list index out of range")
  | r :: _ =>
      outcome (for_in (zip3 (boxes r) (scores r) (labels r))
                 (appending (record_of texts)) [])
  end.
Proof.
  intros Hproc Hfwd Hpost.
  rewrite run_inference_split, outcome_bind. unfold detections.
  rewrite Hproc. cbn. rewrite Hfwd. cbn. rewrite Hpost. cbn.
  destruct results as [| r rest]; reflexivity.
Qed.

End RunBounds.

(** ** Whole calls: requests made, failures, construction *)

Section CallBehaviour.
Context `{Library}.
Import owlv2.

Lemma trace_run_ok self image texts conf recs :
  outcome (__run_inference self image texts conf) = inr recs ->
  trace (__run_inference self image texts conf) = run_requests self.
Proof.
  intros Hrun. rewrite trace_run_inference_exact.
  apply run_inference_ok in Hrun as (ds & Hds & _).
  apply detections_inr_head in Hds as (inputs & ? & ? & ? & -> & _).
  reflexivity.
Qed.

Lemma trace_frames_ok self prompts video :
  forall acc out,
    outcome (for_in video
               (appending (fun frame =>
                  __run_inference self
                    (Image_convert (Image_fromarray frame) "RGB") [prompts]
                    (confidence (model_config self)))) acc) = inr out ->
    trace (for_in video
             (appending (fun frame =>
                __run_inference self
                  (Image_convert (Image_fromarray frame) "RGB") [prompts]
                  (confidence (model_config self)))) acc) =
    flat_map (fun _ => run_requests self) video.
Proof.
  induction video as [| frame video IH]; intros acc out Hout;
    cbn [for_in flat_map]; [reflexivity |].
  cbn [for_in] in Hout. apply outcome_bind_inr in Hout as (acc' & Hx & Hrest).
  rewrite trace_bind, Hx, (IH _ _ Hrest). f_equal.
  unfold appending in *.
  apply outcome_bind_inr in Hx as (recs & Hrun & _).
  rewrite trace_bind, Hrun, (trace_run_ok _ _ _ _ _ Hrun). cbn.
  reflexivity.
Qed.

Lemma trace_call_ok self prompts image video out :
  outcome (__call__ self prompts image video) = inr out ->
  trace (__call__ self prompts image video) =
  flat_map (fun _ => run_requests self) (call_images image video).
Proof.
  destruct image as [image |], video as [video |]; unfold __call__;
    cbn [is_None andb negb call_images]; try discriminate.
  - rewrite bind_assoc. intros Hout.
    apply outcome_bind_inr in Hout as (recs & Hrun & _).
    rewrite trace_bind, Hrun, (trace_run_ok _ _ _ _ _ Hrun). reflexivity.
  - rewrite bind_ret_l, bind_assoc.
    change (for_in video _ [])
      with (for_in video
              (appending (fun frame =>
                 __run_inference self
                   (Image_convert (Image_fromarray frame) "RGB") [prompts]
                   (confidence (model_config self)))) []).
    intros Hout. apply outcome_bind_inr in Hout as (l & Hloop & _).
    rewrite trace_bind, Hloop, (trace_frames_ok _ _ _ _ _ Hloop). cbn.
    rewrite app_nil_r. clear. induction video as [| f video IH]; cbn;
      [reflexivity | now rewrite IH].
Qed.

(** X6. A call that returns has made, for each image or frame in order,
    exactly the three requests of one run: inputs moved to the configured
    device, autocast opened on it, one forward pass. A video of N frames
    costs N forward passes, an empty video none. *)
Theorem one_forward_pass_per_image
    (self : Owlv2) (prompts : list string)
    (image : option PILImage) (video : option (list ndarray))
    (out : list (list Owlv2InferenceData)) :
  outcome (__call__ self prompts image video) = inr out ->
  trace (__call__ self prompts image video) =
  flat_map (fun _ => run_requests self) (call_images image video) /\
  List.length (trace (__call__ self prompts image video)) =
  (3 * List.length (call_images image video))%nat.
Proof.
  intros Hout. rewrite (trace_call_ok _ _ _ _ _ Hout). split; [reflexivity |].
  induction (call_images image video) as [| img imgs IH]; cbn [flat_map];
    [reflexivity |].
  rewrite length_app, IH. cbn. lia.
Qed.

(** X7. A video call stops at the first frame whose run raises: the frames
    after it are not run and leave no trace, so the call is the same
    computation as on the video cut after that frame; if the frames before
    it all returned, the call raises that frame's exception and returns no
    partial result. *)
Theorem video_stops_at_first_failure
    (self : Owlv2) (prompts : list string)
    (pre post : list ndarray) (frame : ndarray) (e : exn) :
  let run f :=
    __run_inference self (Image_convert (Image_fromarray f) "RGB")
      [prompts] (confidence (model_config self)) in
  outcome (run frame) = inl e ->
  __call__ self prompts None (Some (pre ++ frame :: post)) =
  __call__ self prompts None (Some (pre ++ [frame])) /\
  (Forall (fun f => exists recs, outcome (run f) = inr recs) pre ->
   outcome (__call__ self prompts None (Some (pre ++ frame :: post))) =
   inl e).
Proof.
  intros run Hfail.
  assert (Hstep : forall acc post',
    for_in (frame :: post') (appending run) acc =
    (trace (run frame), inl e)).
  { intros acc post'. cbn [for_in]. unfold appending at 1.
    rewrite bind_assoc. now rewrite !(bind_inl _ _ e). }
  assert (Hloop : for_in (pre ++ frame :: post) (appending run) [] =
                  for_in (pre ++ [frame]) (appending run) []).
  { rewrite !for_in_app.
    destruct (for_in pre (appending run) []) as [t [e' | acc]];
      [reflexivity |].
    cbn [bind]. now rewrite !Hstep. }
  split.
  - unfold __call__. cbn [is_None andb negb].
    change (for_in (pre ++ frame :: post) _ [])
      with (for_in (pre ++ frame :: post) (appending run) []).
    change (for_in (pre ++ [frame]) _ [])
      with (for_in (pre ++ [frame]) (appending run) []).
    now rewrite Hloop.
  - intros Hpre. unfold __call__. cbn [is_None andb negb].
    change (for_in (pre ++ frame :: post) _ [])
      with (for_in (pre ++ frame :: post) (appending run) []).
    rewrite bind_ret_l, bind_assoc, outcome_bind, for_in_app, outcome_bind.
    assert (Hok : exists acc,
      outcome (for_in pre (appending run) []) = inr acc).
    { assert (Hrs : exists rs,
        Forall2 (fun f r => outcome (run f) = inr r) pre rs).
      { clear -Hpre. induction Hpre as [| f pre (r & Hr) _ (rs & Hrs)].
        - exists []. constructor.
        - exists (r :: rs). now constructor. }
      destruct Hrs as (rs & Hrs). exists rs.
      apply appending_ok. now exists rs. }
    destruct Hok as (acc & ->). now rewrite Hstep.
Qed.





(** X9. In every call of a tool as [__init__] built it, the inputs, the
    autocast context and the network are on one and the same device, the
    one of the configuration given (or of the default configuration). *)
Theorem fresh_tool_uses_one_device
    (cfg : option OWLV2Config) (self : Owlv2) :
  outcome (__init__ cfg) = inr self ->
  forall prompts image video,
    let d := Device_value
               (device (match cfg with
                        | Some c => c
                        | None => OWLV2Config_default
                        end)) in
    Forall (placed_on d d) (trace (__call__ self prompts image video)).
Proof.
  intros Hinit prompts image video d.
  destruct (init_places_network _ _ Hinit) as (Hcfg & Hdev & _).
  pose proof (trace_call self prompts image video) as Ht.
  rewrite Hdev, Hcfg in Ht. exact Ht.
Qed.

(** X10. Moving a tool as [__init__] built it to any device and then back
    to the device of its configuration gives back the very same tool. *)
Theorem to_and_back_restores
    (cfg : option OWLV2Config) (self : Owlv2) (d : Device) :
  outcome (__init__ cfg) = inr self ->
  to (to self d) (device (model_config self)) = self.
Proof.
  intros Hinit.
  destruct (init_places_network _ _ Hinit) as (_ & Hdev & _).
  destruct self as [config [dev tr fw] proc]. cbn in *.
  unfold to, Module_to. cbn. now rewrite <- Hdev.
Qed.

(** X11. A video of a single frame is processed exactly as the image made
    from that frame: same requests, same value or exception. *)
Theorem one_frame_video_is_image_call
    (self : Owlv2) (prompts : list string) (frame : ndarray) :
  __call__ self prompts None (Some [frame]) =
  __call__ self prompts (Some (Image_fromarray frame)) None.
Proof.
  unfold __call__. cbn [is_None andb negb for_in].
  rewrite !bind_ret_l, !bind_assoc.
  destruct (__run_inference self _ [prompts] _) as [t [e | recs]];
    reflexivity.
Qed.

Lemma Forall2_append {A B} (R : A -> B -> Prop) xs xs' ys ys' :
  Forall2 R xs ys -> Forall2 R xs' ys' -> Forall2 R (xs ++ xs') (ys ++ ys').
Proof. induction 1; cbn; [trivial | constructor; auto]. Qed.

(** X12. Calls on two videos that both return compose: the call on the
    frames of the first followed by those of the second returns the first
    value followed by the second, and makes the requests of the first call
    followed by those of the second. *)
Theorem video_calls_concatenate
    (self : Owlv2) (prompts : list string) (v1 v2 : list ndarray)
    (out1 out2 : list (list Owlv2InferenceData)) :
  outcome (__call__ self prompts None (Some v1)) = inr out1 ->
  outcome (__call__ self prompts None (Some v2)) = inr out2 ->
  outcome (__call__ self prompts None (Some (v1 ++ v2))) = inr (out1 ++ out2)
  /\
  trace (__call__ self prompts None (Some (v1 ++ v2))) =
  trace (__call__ self prompts None (Some v1)) ++
  trace (__call__ self prompts None (Some v2)).
Proof.
  intros H1 H2.
  assert (H12 : outcome (__call__ self prompts None (Some (v1 ++ v2))) =
                inr (out1 ++ out2)).
  { apply call_ok. apply call_ok in H1 as [_ F1]. apply call_ok in H2 as [_ F2].
    split; [reflexivity |]. cbn [call_images] in *.
    rewrite map_app. now apply Forall2_append. }
  split; [exact H12 |].
  rewrite (trace_call_ok _ _ _ _ _ H1), (trace_call_ok _ _ _ _ _ H2),
    (trace_call_ok _ _ _ _ _ H12).
  cbn [call_images]. now rewrite map_app, flat_map_app.
Qed.

End CallBehaviour.

(** ** The theorems at work on the concrete library *)

Section Runs.
Import owlv2 Demo.

Lemma demo_processor_thresholds : thresholds Demo.processor.
Proof.
  intros outputs thr sizes results r s Hpost Hr Hs.
  cbn in Hpost. injection Hpost as <-.
  destruct Hr as [<- | []]. cbn [scores] in Hs.
  apply in_map_iff in Hs as ([[box s'] lb] & <- & Hin).
  apply filter_In in Hin as [_ Hkeep]. exact Hkeep.
Qed.

(** A three-frame video: nothing in frame 0, two cars in frame 1. *)
Lemma video_one_result_per_frame_run :
  exists out,
    outcome (__call__ tool ["car"] None (Some [0; 1; 0]%nat)) = inr out /\
    List.length out = 3%nat /\
    exists recs,
      nth_error out 1 = Some recs /\
      outcome (__run_inference tool 1%nat [["car"]] 0.1%float) = inr recs.
Proof.
  pose proof (video_one_result_per_frame tool ["car"] [0; 1; 0]%nat) as Hv.
  cbv zeta in Hv. destruct Hv as [_ Hv].
  eexists. split; [vm_compute; reflexivity |].
  edestruct Hv as [Hlen Hnth]; [vm_compute; reflexivity |].
  split; [exact Hlen |]. exact (Hnth 1%nat 1%nat eq_refl).
Defined.

(** The lower-scoring of the two cars still clears the threshold. *)
Lemma scores_meet_confidence_run :
  thresholds (_processor tool) /\
  exists recs r,
    outcome (__call__ tool ["car"] (Some 1%nat) None) = inr [recs] /\
    nth_error recs 1 = Some r /\
    score r = 0.8%float /\
    (confidence (model_config tool) <=? score r)%float = true.
Proof.
  split; [exact demo_processor_thresholds |].
  do 2 eexists. split; [vm_compute; reflexivity |].
  split; [reflexivity |]. split; [reflexivity |].
  eapply (scores_meet_confidence tool ["car"] (Some 1%nat) None).
  - exact demo_processor_thresholds.
  - vm_compute; reflexivity.
  - left; reflexivity.
  - right; left; reflexivity.
Defined.

(** Two prompts, two detections: the second is labelled by prompt 1 and
    its box 10.004999, 20, 30, 40.126 comes back as 10, 20, 30, 40.13. *)
Lemma labels_from_prompts_boxes_rounded_run :
  exists out,
    outcome (__call__ tool ["car"; "dog"] (Some 3%nat) None) = inr out /\
    List.map (List.map label) out = [["car"; "dog"]] /\
    List.map (List.map bbox) out =
      [[[723.97; 1373.18; 902.14; 1577.98]; [10.0; 20.0; 30.0; 40.13]]]%float
    /\
    Forall2
      (fun img recs =>
         exists ds,
           outcome (detections tool img [["car"; "dog"]]
                      (confidence (model_config tool))) = inr ds /\
           Forall2
             (fun d r =>
                getitem ["car"; "dog"] (snd d) = inr (label r) /\
                bbox r = List.map (fun c => round c 2) (fst (fst d)))
             ds recs)
      (call_images (Some 3%nat) None) out.
Proof.
  eexists. split; [vm_compute; reflexivity |].
  split; [vm_compute; reflexivity |]. split; [vm_compute; reflexivity |].
  apply (labels_from_prompts_boxes_rounded tool ["car"; "dog"]
           (Some 3%nat) None).
  vm_compute; reflexivity.
Defined.

(** One prompt, decoded label index 3: the run ends in IndexError. *)
Lemma label_index_unguarded_run :
  outcome (detections tool 2%nat [["car"]] (confidence (model_config tool)))
    = inr [([1.0; 2.0; 3.0; 4.0]%float, 0.7%float, 3)] /\
  outcome (__run_inference tool 2%nat [["car"]]
             (confidence (model_config tool))) =
  inl (IndexError "list index out of range").
Proof.
  split; [vm_compute; reflexivity |].
  apply (proj2 (label_index_unguarded tool ["car"] (Some 2%nat) None)
           2%nat [([1.0; 2.0; 3.0; 4.0]%float, 0.7%float, 3)]
           [1.0; 2.0; 3.0; 4.0]%float 0.7%float 3).
  - vm_compute; reflexivity.
  - left; reflexivity.
  - vm_compute; discriminate.
Defined.

(** C3, on the code: the two cars of image 1 overlap by more than 0.5,
    share their label and differ in score, and both are returned; a
    keyword [nms_threshold] is not bound by [__call__]. *)
Lemma overlapping_detections_both_returned :
  bind_keywords __call___parameters ["prompts"; "image"; "nms_threshold"] =
    inl (TypeError "got an unexpected keyword argument 'nms_threshold'") /\
  exists hi lo,
    outcome (__call__ tool ["car"] (Some 1%nat) None) = inr [[hi; lo]] /\
    label hi = label lo /\
    (score lo <? score hi)%float = true /\
    (0.5 <? iou (bbox hi) (bbox lo))%float = true /\
    suppressed 0.5 [hi; lo] = false.
Proof.
  split; [reflexivity |].
  do 2 eexists. split; [vm_compute; reflexivity |].
  repeat split; vm_compute; reflexivity.
Qed.

Lemma call_applies_no_suppression_run :
  exists out,
    outcome (__call__ tool ["car"] (Some 1%nat) None) = inr out /\
    ~ In "nms_threshold" __call___parameters /\
    Forall2
      (fun img recs =>
         exists ds,
           outcome (detections tool img [["car"]]
                      (confidence (model_config tool))) = inr ds /\
           List.length recs = List.length ds /\
           List.map score recs = List.map (fun d => snd (fst d)) ds)
      (call_images (Some 1%nat) None) out.
Proof.
  eexists. split; [vm_compute; reflexivity |].
  apply (call_applies_no_suppression tool ["car"] (Some 1%nat) None).
  vm_compute; reflexivity.
Defined.

(** C7, on the code: no screw in image 0; the value returned is [[[]]],
    which is not the list holding a dict of empty "bboxes" and "labels". *)
Lemma empty_result_is_not_a_dict :
  outcome (__call__ tool ["screw"] (Some 0%nat) None) = inr [[]] /\
  to_py [[]] = PyList [PyList []] /\
  to_py [[]] <> spec_empty_grounding.
Proof.
  split; [vm_compute; reflexivity |].
  split; [reflexivity | discriminate].
Qed.

Lemma no_detections_give_empty_list_run :
  outcome (detections tool 0%nat [["screw"]]
             (confidence (model_config tool))) = inr [] /\
  outcome (__call__ tool ["screw"] (Some 0%nat) None) = inr [[]] /\
  to_py [[]] = PyList [PyList []].
Proof.
  split; [vm_compute; reflexivity |].
  apply (proj2 (no_detections_give_empty_list tool ["screw"]) 0%nat).
  vm_compute; reflexivity.
Defined.

(** A tool configured for the CPU and moved to the GPU still sends its
    inputs to the CPU; the stand-in network, like torch, then refuses. *)
Example moved_tool_keeps_configured_device :
  __call__ (to tool GPU) ["car"] (Some 1%nat) None =
  ([EvInputsTo "cpu"; EvAutocast "cpu"; EvForward "cuda"],
   inl (LibraryError
          (RuntimeError "Expected all tensors to be on the same device"))).
Proof. vm_compute; reflexivity. Qed.

Example depth_call_runs :
  outcome (depth_estimation.__call__ depth_tool
             (PyStr "tests/shared_data/images/cereal.jpg")) =
    inr {| depth_estimation.map := 0%nat |} /\
  outcome (depth_estimation.__call__ depth_tool (PyImage 4%nat)) =
    inr {| depth_estimation.map := 4%nat |} /\
  outcome (depth_estimation.__call__ depth_tool (PyArray 4%nat)) =
    inl (ValueError "Invalid image type. Expected str or PIL.Image.Image.")
  /\
  outcome (depth_estimation.__call__ depth_tool PyNone) =
    inl (ValueError "Invalid image type. Expected str or PIL.Image.Image.").
Proof. repeat split. Qed.

End Runs.


(** ** Further runs on the concrete library *)

Section MoreRuns.
Import owlv2 Demo.

(** Image 2 decodes label index 3; with one prompt that is not a valid
    index, and the run does not return. *)
Lemma run_returns_iff_indices_valid_run :
  outcome (detections tool 2%nat [["car"]] (confidence (model_config tool)))
    = inr [([1.0; 2.0; 3.0; 4.0]%float, 0.7%float, 3)] /\
  ((exists recs,
      outcome (__run_inference tool 2%nat [["car"]]
                 (confidence (model_config tool))) = inr recs) <->
   (forall d, In d [([1.0; 2.0; 3.0; 4.0]%float, 0.7%float, 3)] ->
              valid_index 1 (snd d))).
Proof.
  split; [vm_compute; reflexivity |].
  apply (run_returns_iff_indices_valid tool ["car"] 2%nat).
  vm_compute; reflexivity.
Defined.

Lemma empty_prompts_reject_detections_run :
  exists d ds,
    outcome (detections tool 3%nat [[]] (confidence (model_config tool)))
      = inr (d :: ds) /\
    outcome (__run_inference tool 3%nat [[]]
               (confidence (model_config tool))) =
    inl (IndexError "list index out of range").
Proof.
  do 2 eexists. split; [vm_compute; reflexivity |].
  eapply (empty_prompts_reject_detections tool 3%nat).
  vm_compute; reflexivity.
Defined.

(** Two boxes, one score, three labels: one record. *)
Lemma record_count_is_shortest_length_run :
  exists results r recs,
    post_process_object_detection (_processor ragged_tool) 0%nat 0.1%float
      [(480, 640)] = inr results /\
    getitem results 0 = inr r /\
    List.length (boxes r) = 2%nat /\
    List.length (scores r) = 1%nat /\
    List.length (labels r) = 3%nat /\
    outcome (__run_inference ragged_tool 0%nat [["car"]] 0.1%float)
      = inr recs /\
    List.length recs = 1%nat /\
    List.length recs =
    Nat.min (List.length (boxes r))
            (Nat.min (List.length (scores r)) (List.length (labels r))).
Proof.
  do 3 eexists. split; [reflexivity |]. split; [reflexivity |].
  do 3 (split; [reflexivity |]).
  split; [vm_compute; reflexivity |]. split; [reflexivity |].
  eapply (record_count_is_shortest_length ragged_tool 0%nat [["car"]]
            0.1%float (0%nat, "cpu") 0%nat);
    [reflexivity | reflexivity | reflexivity | reflexivity
    | vm_compute; reflexivity].
Defined.

(** The second entry, with its label index 7, is never looked at. *)
Lemma only_first_result_is_read_run :
  exists results,
    post_process_object_detection (_processor ragged_tool) 0%nat 0.1%float
      [(480, 640)] = inr results /\
    List.length results = 2%nat /\
    outcome (__run_inference ragged_tool 0%nat [["car"]] 0.1%float) =
    match results with
    | [] => inl (IndexError "list index out of range")
    | r :: _ =>
        outcome (for_in (zip3 (boxes r) (scores r) (labels r))
                   (appending (record_of [["car"]])) [])
    end.
Proof.
  eexists. split; [reflexivity |]. split; [reflexivity |].
  exact (only_first_result_is_read ragged_tool 0%nat [["car"]] 0.1%float
           (0%nat, "cpu") 0%nat _ eq_refl eq_refl eq_refl).
Defined.

Lemma one_forward_pass_per_image_run :
  exists out,
    outcome (__call__ tool ["car"] None (Some [0; 1; 0]%nat)) = inr out /\
    trace (__call__ tool ["car"] None (Some [0; 1; 0]%nat)) =
    flat_map (fun _ => run_requests tool)
      (call_images None (Some [0; 1; 0]%nat)) /\
    List.length (trace (__call__ tool ["car"] None (Some [0; 1; 0]%nat))) =
    (3 * List.length (call_images None (Some [0; 1; 0]%nat)))%nat.
Proof.
  eexists. split; [vm_compute; reflexivity |].
  eapply (one_forward_pass_per_image tool ["car"] None).
  vm_compute; reflexivity.
Defined.

(** Frame 2 decodes label index 3 for a single prompt; frame 1 after it is
    not run. *)
Lemma video_stops_at_first_failure_run :
  outcome (__run_inference tool 2%nat [["car"]]
             (confidence (model_config tool))) =
    inl (IndexError "list index out of range") /\
  __call__ tool ["car"] None (Some ([0%nat] ++ 2%nat :: [1%nat])) =
  __call__ tool ["car"] None (Some ([0%nat] ++ [2%nat])) /\
  outcome (__call__ tool ["car"] None (Some ([0%nat] ++ 2%nat :: [1%nat]))) =
  inl (IndexError "list index out of range").
Proof.
  split; [vm_compute; reflexivity |].
  pose proof (video_stops_at_first_failure tool ["car"] [0%nat] [1%nat]
                2%nat (IndexError "list index out of range")) as Hv.
  cbv zeta in Hv. destruct Hv as [Hsame Hfail]; [vm_compute; reflexivity |].
  split; [exact Hsame |]. apply Hfail.
  constructor; [| constructor]. eexists. vm_compute; reflexivity.
Defined.


Lemma fresh_tool_uses_one_device_run :
  outcome (__init__ None) = inr tool /\
  Forall (placed_on "cpu" "cpu")
    (trace (__call__ tool ["car"] None (Some [0; 1]%nat))).
Proof.
  assert (Hinit : outcome (__init__ None) = inr tool)
    by (vm_compute; reflexivity).
  split; [exact Hinit |].
  exact (fresh_tool_uses_one_device None tool Hinit ["car"] None
           (Some [0; 1]%nat)).
Defined.

Lemma to_and_back_restores_run :
  outcome (__init__ None) = inr tool /\
  to (to tool GPU) (device (model_config tool)) = tool.
Proof.
  split; [vm_compute; reflexivity |].
  apply (to_and_back_restores None tool GPU). vm_compute; reflexivity.
Defined.

Lemma video_calls_concatenate_run :
  exists out1 out2,
    outcome (__call__ tool ["car"] None (Some [0; 1]%nat)) = inr out1 /\
    outcome (__call__ tool ["car"] None (Some [1]%nat)) = inr out2 /\
    outcome (__call__ tool ["car"] None (Some ([0; 1] ++ [1])%nat)) =
      inr (out1 ++ out2) /\
    trace (__call__ tool ["car"] None (Some ([0; 1] ++ [1])%nat)) =
    trace (__call__ tool ["car"] None (Some [0; 1]%nat)) ++
    trace (__call__ tool ["car"] None (Some [1]%nat)).
Proof.
  do 2 eexists. split; [vm_compute; reflexivity |].
  split; [vm_compute; reflexivity |].
  apply (video_calls_concatenate tool ["car"] [0; 1]%nat [1]%nat);
    vm_compute; reflexivity.
Defined.

End MoreRuns.
